(** * Honzoraptor31415/website: the tutorial-index redirect and a blog post

  A shallow embedding of the two source files of the site:

  - [src/routes/docs/tutorials/nextjs/+page.ts], whose [load] handler
    throws a SvelteKit redirect to the first step of the tutorial;
  - [src/routes/blog/post/how-to-optimize-your-appwrite-project/+page.markdoc],
    a content document: a front-matter header followed by a Markdoc body.

  The two functions of the post's code sample on cache expiry,
  [saveToCache] and [getFromCache], are embedded in [CacheSnippet] over a
  model of [localStorage] and of the host's JSON built-ins ([Js]).

  The handler is an [async] arrow function, so it is embedded as a term of
  a small free monad of asynchronous computations ([Async]) whose
  interpreter [run] threads an explicit world (network, files, store),
  records the operations performed and counts the suspension points. *)

From Stdlib Require Import ZArith.
From stdpp Require Import base option list strings gmap relations.
From stdpp Require Import pretty.

Local Open Scope string_scope.
Local Open Scope Z_scope.

(** ** The framework surface imported by the route file *)

Module Kit.

(** The object built by [redirect(status, location)]. *)
Record Redirect : Type := mkRedirect { status : Z; location : string }.

(** Values a load handler can throw: a redirect, or a plain [Error]. *)
Inductive Thrown : Type :=
| ThrownRedirect (r : Redirect)
| ThrownError (message : string).

(** Completion of a synchronous expression: a value, or an abrupt
    completion carrying the thrown value. *)
Inductive Completion (A : Type) : Type :=
| Normal (a : A)
| Abrupt (e : Thrown).
Arguments Normal {A} a.
Arguments Abrupt {A} e.

(** [import { redirect } from '@sveltejs/kit'].  The function belongs to
    the framework and not to this repository; the route file is written
    against the form that returns the object to be thrown
    ([throw redirect(...)]).  The framework rejects a status outside
    300..308 with an [Error]; otherwise it builds the [Redirect]. *)
Definition redirect (status : Z) (location : string) : Completion Redirect :=
  if (status <? 300) || (308 <? status)
  then Abrupt (ThrownError "Invalid status code")
  else Normal (mkRedirect status location).

(** The argument the framework passes to a universal [load] function. *)
Record LoadEvent : Type := mkLoadEvent {
  url : string;
  route_id : option string;
  params : gmap string string;
  data : option string
}.

(** What a [load] function hands to the page when it returns. *)
Definition PageData : Type := gmap string string.

End Kit.

(** ** Asynchronous computations *)

Module Async.
Import Kit.

(** The effects the specification speaks of. *)
Inductive Op : Type :=
| Fetch (url : string)              (* a network call *)
| ReadFile (path : string)          (* a file read *)
| Store (key value : string).       (* a mutation of process state *)

(** The body of an [async] function. [Await] is a suspension point;
    [Perform] is an effect carried out without suspending. *)
Inductive Async (A : Type) : Type :=
| Ret (a : A)
| Throw (e : Thrown)
| Perform (o : Op) (k : string -> Async A)
| Await (o : Op) (k : string -> Async A).
Arguments Ret {A} a.
Arguments Throw {A} e.
Arguments Perform {A} o k.
Arguments Await {A} o k.

(** [throw e] where [e] is an expression: an abrupt completion of [e]
    propagates, a value of [e] is thrown. *)
Definition throw_expr {A : Type} (e : Completion Redirect) : Async A :=
  match e with
  | Normal r => Throw (ThrownRedirect r)
  | Abrupt x => Throw x
  end.

(** The state of the promise an [async] function returns, once settled. *)
Inductive Settled (A : Type) : Type :=
| Fulfilled (a : A)
| Rejected (e : Thrown).
Arguments Fulfilled {A} a.
Arguments Rejected {A} e.

(** The process and its surroundings. *)
Record World : Type := mkWorld {
  net : string -> string;
  files : gmap string string;
  store : gmap string string
}.

Definition exec (o : Op) (w : World) : string * World :=
  match o with
  | Fetch u => (net w u, w)
  | ReadFile p => (default "" (files w !! p), w)
  | Store k v => ("", mkWorld (net w) (files w) (<[k := v]> (store w)))
  end.

(** The result of running an async function to completion. *)
Record Run (A : Type) : Type := mkRun {
  final : World;
  trace : list Op;
  suspensions : nat;
  settled : Settled A
}.
Arguments mkRun {A} _ _ _ _.
Arguments final {A} _.
Arguments trace {A} _.
Arguments suspensions {A} _.
Arguments settled {A} _.

Definition after {A : Type} (o : Op) (susp : nat) (r : Run A) : Run A :=
  mkRun (final r) (o :: trace r) (susp + suspensions r)%nat (settled r).

Fixpoint run {A : Type} (c : Async A) (w : World) : Run A :=
  match c with
  | Ret a => mkRun w [] 0%nat (Fulfilled a)
  | Throw e => mkRun w [] 0%nat (Rejected e)
  | Perform o k => after o 0 (run (k (exec o w).1) (exec o w).2)
  | Await o k => after o 1 (run (k (exec o w).1) (exec o w).2)
  end.

(** The body contains no [await]. *)
Inductive no_await {A : Type} : Async A -> Prop :=
| na_ret a : no_await (Ret a)
| na_throw e : no_await (Throw e)
| na_perform o k : (forall v, no_await (k v)) -> no_await (Perform o k).

(** The body performs no operation at all. *)
Inductive effect_free {A : Type} : Async A -> Prop :=
| ef_ret a : effect_free (Ret a)
| ef_throw e : effect_free (Throw e).

End Async.

(** ** src/routes/docs/tutorials/nextjs/+page.ts *)

Module TutorialIndex.
Import Kit Async.

(** The route file, relative to the repository root. *)
Definition route_file : string := "src/routes/docs/tutorials/nextjs/+page.ts".

(** [export const load: PageLoad = async () => { throw redirect(303, ...) }].
    The arrow function declares no parameter: the event the framework
    passes is dropped. *)
Definition load (_ : LoadEvent) : Async PageData :=
  throw_expr (redirect 303 "/docs/tutorials/nextjs/step-1").

End TutorialIndex.

(** ** Routes and the redirect rules they define *)

Module Routes.
Import Kit Async.

(** The framework derives a page's route from the place of its [+page.ts]
    file under [src/routes]. *)
Definition routes_dir : string := "src/routes".
Definition page_module : string := "/+page.ts".

Definition route_of_file (file : string) : option string :=
  let n := String.length file in
  let a := String.length routes_dir in
  let b := String.length page_module in
  if String.prefix routes_dir file
     && String.eqb (String.substring (n - b) b file) page_module
  then Some (let r := String.substring a (n - a - b) file in
             if String.eqb r "" then "/" else r)
  else None.

(** A redirect rule: the route being loaded, where it sends the visitor,
    and the HTTP status it does so with. *)
Record RedirectRule : Type := mkRule {
  source : string;
  target : string;
  rule_status : Z
}.

Definition Handler : Type := LoadEvent -> Async PageData.

(** The rule a route's handler defines when run on [ev] in [w], if it
    redirects at all. *)
Definition rule_of_route (ev : LoadEvent) (w : World)
    (route : string * Handler) : option RedirectRule :=
  match route_of_file route.1, settled (run (route.2 ev) w) with
  | Some src, Rejected (ThrownRedirect r) =>
      Some (mkRule src (location r) (status r))
  | _, _ => None
  end.

(** The page modules of the repository that carry a [load] handler. *)
Definition routes : list (string * Handler) :=
  [ (TutorialIndex.route_file, TutorialIndex.load) ].

Definition redirect_rules (ev : LoadEvent) (w : World) : list RedirectRule :=
  omap (rule_of_route ev w) routes.

(** The values the single rule is expected to have. *)
Definition tutorial_route : string := "/docs/tutorials/nextjs".
Definition first_step_route : string := "/docs/tutorials/nextjs/step-1".
Definition tutorial_redirect : Redirect := mkRedirect 303 first_step_route.
Definition tutorial_rule : RedirectRule :=
  mkRule tutorial_route first_step_route 303.

End Routes.

(** ** The page-load pipeline around a handler *)

Module Pipeline.
Import Kit Async Routes.

Inductive Phase : Type :=
| Loading (ev : LoadEvent) (w : World)
| Redirected (r : Redirect)
| Rendered (d : PageData)
| Failed (message : string).

(** What the pipeline does with the settled promise of [load]: a thrown
    redirect becomes a redirect response, a returned value is rendered. *)
Definition conclude (s : Settled PageData) : Phase :=
  match s with
  | Fulfilled d => Rendered d
  | Rejected (ThrownRedirect r) => Redirected r
  | Rejected (ThrownError m) => Failed m
  end.

Inductive step (h : Handler) : Phase -> Phase -> Prop :=
| step_load ev w :
    step h (Loading ev w) (conclude (settled (run (h ev) w))).

(** The load a transition at a time.  While the body of the handler runs,
    every operation it performs is a transition of its own, and its
    [return] or [throw] is the transition that ends the load.  The stage
    keeps the world, so a handler that writes to it ends in another one. *)
Inductive Stage : Type :=
| InLoad (c : Async PageData) (w : World)
| Over (p : Phase) (w : World).

(** The framework calls the handler with the event of the visit. *)
Definition enter (h : Handler) (ev : LoadEvent) (w : World) : Stage :=
  InLoad (h ev) w.

Definition next (s : Stage) : option Stage :=
  match s with
  | InLoad (Ret d) w => Some (Over (conclude (Fulfilled d)) w)
  | InLoad (Throw e) w => Some (Over (conclude (Rejected e)) w)
  | InLoad (Perform o k) w => Some (InLoad (k (exec o w).1) (exec o w).2)
  | InLoad (Await o k) w => Some (InLoad (k (exec o w).1) (exec o w).2)
  | Over _ _ => None
  end.

Definition transition (s s' : Stage) : Prop := next s = Some s'.

(** A world with nothing in it, for concrete runs. *)
Definition empty_world : World := mkWorld (fun _ => "") ∅ ∅.

(** The event of a visit to the tutorial index. *)
Definition index_visit : LoadEvent :=
  mkLoadEvent "https://appwrite.io/docs/tutorials/nextjs"
              (Some tutorial_route) ∅ None.

End Pipeline.

(** ** The resolver generalised to a rule table *)

Module RuleTable.
Import Kit Async Routes.

(** Modelled from the spec: the status classification of a signal, which
    the source does not name.  The glossary reads Temporary as HTTP 303 and
    Permanent as HTTP 301. *)
Inductive Classification : Type := Temporary | Permanent.

Definition classify (status : Z) : option Classification :=
  if status =? 303 then Some Temporary
  else if status =? 301 then Some Permanent
  else None.

(** Modelled from the spec: the [Signal] of section 4.1, a destination
    route with its status classification. *)
Record Signal : Type := mkSignal {
  destination : string;
  classification : Classification
}.

(** Modelled from the spec: the outcomes section 8 tells apart for a
    lookup in a rule table.  The repository has no rule table and no
    [resolve]; sections 4.1, 7 and 9 describe them. *)
Inductive Resolution : Type :=
| Jump (s : Signal)
| UnmappedRoute
| SilentNoOp
| UnhandledFault.

(** Modelled from the spec: [resolve] over "a single immutable mapping from
    source route to (destination route, status classification)"; a source
    without a rule fails with [UnmappedRoute]. *)
Definition resolve (table : gmap string (string * Classification))
    (sourceRoute : string) : Resolution :=
  match table !! sourceRoute with
  | Some (dest, cls) => Jump (mkSignal dest cls)
  | None => UnmappedRoute
  end.

(** The table holding the rules the route handlers define. *)
Definition entry_of_rule (r : RedirectRule)
    : option (string * (string * Classification)) :=
  cls ← classify (rule_status r); Some (source r, (target r, cls)).

Definition table_of_rules (rs : list RedirectRule)
    : gmap string (string * Classification) :=
  list_to_map (omap entry_of_rule rs).

End RuleTable.

(** ** src/routes/blog/post/how-to-optimize-your-appwrite-project/+page.markdoc *)

Module BlogPost.

(** The content document, line by line. *)
Definition page_markdoc : list string := [
  "---";
  "layout: post";
  "title: How to optimize your Appwrite project for cost and performance";
  "description: Learn how to optimize your Appwrite project, manage resource usage, costs, and ensure smooth performance as yout application scales.";
  "date: 2024-09-20";
  "cover: /images/blog/how-to-optimize-your-appwrite-project/cover.png";
  "timeToRead: 12";
  "author: ebenezer-don";
  "category: product";
  "featured: false";
  "---";
  "";
  "As your Appwrite project scales, performance and resource management become critical, not just to keep your app running smoothly, but also to avoid unexpected usage spikes. While Appwrite is designed to scale effortlessly, it's important to proactively optimize your usage so you don't reach resource limits prematurely. Effective optimization helps reduce costs, improves performance, and enhances user experience without compromising on functionality.";
  "";
  "This guide provides a detailed overview of techniques to optimize your Appwrite project, covering API request management, caching strategies, file compression, image optimization, and other methods to ensure your app performs well while staying within your desired resource limits.";
  "";
  "# 1. Reducing API requests: Smart querying and consolidation";
  "";
  "Every API request consumes resources, and when requests are made inefficiently, they can consume substantial resources and increase usage costs. Here are strategies to help reduce unnecessary API calls:";
  "";
  "## Efficient use of listDocuments with queries";
  "";
  "In Appwrite, fetching multiple documents from a database is made easy with the [listDocuments](https://appwrite.io/docs/references/cloud/client-web/databases#listDocuments) method. This method allows you to retrieve all documents in a collection or apply filters using the Query API. Instead of making multiple requests for each document, you can fetch only the relevant data with a single request.";
  "";
  "For example, in a content management system where you need to load blog posts written by a particular author, rather than making individual requests for each document, use Appwrite's `listDocuments` method with a filter:";
  "";
  "```javascript";
  "const blogPosts = await databases.listDocuments(";
  "  '<DATABASE_ID>',";
  "  '<COLLECTION_ID>',";
  "  [Query.equal('author', 'Michael Scott')],";
  ")";
  "```";
  "";
  "By fetching all the documents you need in one go and applying filters, you reduce the number of requests and improve performance. However, as we'll see in the next section, you should use the `listDocuments` method carefully to avoid fetching unnecessary data, else you might end up with a large dataset that could slow down your application.";
  "";
  "## Optimize pagination and filtering";
  "";
  "For applications with large datasets (e.g., e-commerce platforms with thousands of products), retrieving all data at once can overwhelm your system. Use Appwrite's pagination and filtering feature to only fetch what's immediately needed.";
  "";
  "For example, if you're loading products from a database, instead of fetching all products, fetch them in batches using pagination.";
  "";
  "```javascript";
  "const firstPage = await databases.listDocuments(";
  "  '<DATABASE_ID>',";
  "  '<COLLECTION_ID>',";
  "  [";
  "    Query.equal('author', 'Meredith Palmer'),";
  "    Query.limit(20),";
  "    Query.offset(0),// Fetch the first 20 records";
  "  ],";
  ")";
  "";
  "const secondPage = await databases.listDocuments(";
  "  '<DATABASE_ID>',";
  "  '<COLLECTION_ID>',";
  "  [";
  "    Query.equal('author', 'JaneDoe'),";
  "    Query.limit(20),";
  "    Query.offset(20),// Fetch the next 20 records";
  "  ],";
  ")";
  "```";
  "";
  "This strategy will not only conserve bandwidth but will ensure that your queries return faster results, improving your user experience.";
  "";
  "For more information on querying documents, the [Appwrite Queries documentation](https://appwrite.io/docs/products/databases/queries) provides detailed examples and options.";
  "";
  "## WebSockets for real-time data";
  "";
  "When building real-time applications (e.g., chat apps or collaborative tools), polling APIs frequently can result in unnecessary usage and increased server load. Appwrite's [Realtime API](https://appwrite.io/docs/apis/realtime) solves this by allowing you to subscribe to events and receive updates in real time via WebSockets. This ensures that your app remains responsive without the need for constant polling.";
  "";
  "For example, you can subscribe to file upload events in real-time:";
  "";
  "```javascript";
  "const unsubscribe = client.subscribe('files', (response) => {";
  "  if (response.events.includes('buckets.*.files.*.create')) {";
  "    console.log('New file uploaded:', response.payload)";
  "  }";
  "})";
  "```";
  "";
  "In addition to handling real-time updates, Appwrite's Realtime API can help decide when further requests are needed. Instead of continuously fetching data to check for updates, you can create a versioning system.";
  "";
  "1. **Versioning Document**: Create a document with a single column, `version`, to track updates.";
  "2. **Subscribe to Changes**: Use the Realtime API to monitor changes in this document. If the `version` field updates, it signals that the data has changed and needs re-fetching.";
  "";
  "Appwrite's Realtime API supports multiple channels, such as `files`, `account`, and specific `collections`, ensuring updates from any part of your app. To learn more about the Realtime API, refer to the [Appwrite Realtime documentation](https://appwrite.io/docs/realtime).";
  "";
  "By using Appwrite's real-time feature, you drastically reduce API request overhead, especially for high-traffic apps like live dashboards or messaging platforms, while maintaining instant, event-driven updates.";
  "";
  "# 2. Effective caching: Reducing redundant data fetching";
  "";
  "Caching is one of the most important strategies for improving both performance and resource management in your Appwrite project. By caching frequently accessed data, you reduce the number of redundant requests sent to your Appwrite instance.";
  "";
  "## Client-side caching with localStorage or IndexedDB";
  "";
  "For non-sensitive or rarely changing data, client-side caching can significantly reduce server load and improve application responsiveness. Use the browser's `localStorage` or `IndexedDB` to store data that users frequently access, such as user settings, app configurations, or product lists.";
  "";
  "For instance, in a to-do list app, user preferences (e.g., preferred task view) can be cached locally so that the app doesn't need to retrieve this data from Appwrite on every page load.";
  "";
  "```javascript";
  "// Cache user preferences in localStorage";
  "localStorage.setItem('userPreferences', JSON.stringify(preferences))";
  "";
  "// Retrieve user preferences from cache";
  "const cachedPreferences = JSON.parse(localStorage.getItem('userPreferences'))";
  "```";
  "";
  "This reduces unnecessary API requests and allows for instant access to cached data, improving performance.";
  "";
  "## Optimized cache expiry and invalidations";
  "";
  "Caching data on the client side is effective, but it must be combined with intelligent cache expiry strategies to avoid serving stale data. Ensure that the cache is invalidated and refreshed when necessary, such as when the data changes or after a certain time period.";
  "";
  "```javascript";
  "// Cache with expiration (using localStorage)";
  "const saveToCache = (key, data) => {";
  "  const item = {";
  "    data,";
  "    expiry: Date.now() + 1000 * 60 * 60, // Cache for 1 hour";
  "  }";
  "  localStorage.setItem(key, JSON.stringify(item))";
  "}";
  "";
  "const getFromCache = (key) => {";
  "  const cachedItem = localStorage.getItem(key)";
  "  if (!cachedItem) return null";
  "";
  "  const item = JSON.parse(cachedItem)";
  "  if (Date.now() > item.expiry) {";
  "    localStorage.removeItem(key) // Invalidate stale cachereturn null";
  "  }";
  "";
  "  return item.data";
  "}";
  "```";
  "";
  "This ensures your users get up-to-date data while reducing the number of requests made to the server.";
  "";
  "## Server-side caching with Redis";
  "";
  "Redis is a widely-used, high-performance in-memory data store that can be an excellent choice for server-side caching in your Appwrite projects. Redis can be deployed alongside your Appwrite backend to cache frequently accessed data, reducing the load on your Appwrite instance and speeding up response times for users.";
  "";
  "For example, in an e-commerce application, you could cache product categories, prices, or frequently queried data in Redis. This way, instead of hitting the database for every request, your application can retrieve data directly from Redis, which significantly improves performance for repeated requests. You can learn more about Redis in the [Redis documentation](https://redis.io/documentation).";
  "";
  "# 3. Optimizing file storage: Compression and efficient file delivery";
  "";
  "Managing large files can be a significant source of resource consumption. Optimizing file storage and delivery can help keep storage costs down and ensure faster data transfers.";
  "";
  "## Bucket compression";
  "";
  "One of the most important optimizations for file storage is **bucket compression**. Appwrite allows you to compress files in your buckets using either the `gzip` or `zstd` compression algorithms. Enabling compression reduces the file size and conserves storage space, which is particularly useful for large files and media-heavy apps.";
  "";
  "- **Gzip** is a widely-used compression algorithm that offers good compression ratios for many types of files.";
  "- **Zstd** (Zstandard) is a modern, high-performance compression algorithm that provides better compression efficiency and decompression speed compared to gzip, making it a great choice for high-performance applications.";
  "";
  "To enable compression for a bucket, you can set this up via the Appwrite Console or programmatically using the SDK:";
  "";
  "```javascript";
  "const promise = storage.createBucket('bucketId', 'bucketName', {";
  "  compression: 'zstd',";
  "})";
  "```";
  "";
  "Keep in mind that files larger than **20MB** are not compressed, even if compression is enabled. This is done to prevent performance bottlenecks when handling large files. Enabling compression at the bucket level not only helps reduce storage usage but also speeds up file transfers by reducing the amount of data sent over the network.";
  "";
  "## Optimizing image delivery with the Preview API";
  "";
  "Appwrite allows you to serve compressed and optimized versions of your images to reduce bandwidth usage and improve performance. You can use the preview endpoint to adjust image quality, resolution, format, and more, without needing to modify the original file. This is useful for serving responsive images on the web, where you might want to reduce file sizes for faster load times.";
  "";
  "```javascript";
  "// Serve an optimized image preview";
  "const optimizedImage = storage.getFilePreview(";
  "  'bucketId', // The bucket ID where the file is stored";
  "  'fileId',   // The file ID of the uploaded image";
  "  800,        // Resize the width to 800px";
  "  0,          // Keep the original height (aspect ratio preserved)";
  "  'center',   // Crop the image centered if cropping is needed";
  "  80,         // Set image quality to 80%";
  "  0,          // No border";
  "  '',         // No border color";
  "  0,          // No border radius";
  "  1,          // Full opacity";
  "  0,          // No rotation";
  "  '',         // No background color";
  "  'webp',     // Convert the image to WebP format for better compression";
  ")";
  "```";
  "";
  "While this example shows how to serve an optimized image preview, and will greatly improve load times, it will not affect the original file size in your storage. So if you want to save storage space, consider compressing and optimizing files at the time of upload. A good practice for image optimization is to use formats like `WebP`, which offer better compression than JPEG or PNG.";
  "";
  "## Optimizing file delivery with CDNs and regional project deployment";
  "";
  "For improved file delivery performance, especially in media-heavy applications, you can leverage a domain-level CDN like **Cloudflare**. A CDN caches files and serves them from locations closer to your users, reducing load times and improving the overall experience without overburdening your Appwrite server.";
  "";
  "In addition, deploying your Appwrite project in a region near your user base can further reduce latency. Currently, Appwrite supports the **FRA (Frankfurt) region**, which is great for users in Europe. We're also expanding to more regions soon, giving you even more options to optimize performance based on your audience's location.";
  "";
  "By combining CDNs and regional project deployments, you can enhance file delivery speeds, reduce latency, and ensure a more responsive user experience.";
  "";
  "# 4. Using serverless functions for optimized workflows";
  "";
  "Serverless functions in Appwrite are a powerful tool for optimizing resource usage. Instead of handling complex, resource-heavy operations on the client or in your core backend, offload these tasks to serverless functions that can execute asynchronously and on-demand.";
  "";
  "Tasks like generating reports, processing data, or transforming files can be offloaded to serverless functions. This approach frees up the client and backend from performing expensive computations and ensures that heavy workloads don't slow down your core application.";
  "";
  "# 5. Setting up usage limits, alerts, and budget controls";
  "";
  "Proactively managing your resource usage in Appwrite is key to avoiding unexpected overages and optimizing costs. Appwrite offers built-in tools for setting up usage alerts and budget controls to help developers manage their consumption.";
  "";
  "## Budget controls";
  "";
  "You can also enable budget alerts to monitor your spending and prevent unexpected charges. For teams managing larger projects or multiple clients, setting budget limits ensures you stay within financial expectations.";
  "";
  "To configure budget alerts, start by navigating to the **Appwrite Cloud Console**, then go to the **Organisation** section and select **Billing**. Here, you'll find options to manage your budget. You can set a **budget cap** to define a hard limit on your spending, and in the **Budget Alerts** section, you can enable notifications that trigger when your spending reaches a certain threshold. This ensures you are alerted before exceeding your desired budget.";
  "";
  "![Budget controls in Appwrite Cloud Console](/images/blog/how-to-optimize-your-appwrite-project/budget-controls.png)";
  "";
  "# 6. Monitoring and scaling your Appwrite project";
  "";
  "Appwrite handles scalability efficiently, particularly in its cloud environment. Appwrite Cloud automatically scales resources as needed, ensuring that your application can handle increased traffic or workloads without requiring manual intervention. This automatic scaling allows you to focus on building your app, while Appwrite dynamically adjusts the resources behind the scenes to maintain optimal performance during traffic spikes.";
  "";
  "While this is a significant advantage of using Appwrite Cloud, self-hosted instances also provide flexibility for custom scaling configurations. By monitoring your Appwrite project's resource usage, you can identify bottlenecks, optimize your app, and scale horizontally as needed.";
  "";
  "## Automatic scaling in Appwrite";
  "";
  "Appwrite's infrastructure is built on top of Docker, which allows for containerized scaling. Each service in Appwrite is containerized, meaning services like databases, storage, or functions can be scaled horizontally as demand increases. This happens automatically in the cloud version of Appwrite, making it easier for developers to handle surges in user traffic without experiencing downtime or performance degradation. For self-hosted Appwrite, scaling is also possible but requires setting up and managing Docker containers manually.";
  "";
  "In Appwrite's cloud environment, you don't have to worry about manually configuring load balancers or managing server instances to scale your application. Appwrite automatically distributes workloads, ensuring smooth operation regardless of traffic volumes.";
  "";
  "## Monitoring resource usage";
  "";
  "Appwrite provides built-in monitoring to help track API usage, database operations, storage, and other key metrics. This monitoring allows you to identify potential inefficiencies, such as high API request volumes or unnecessary data fetches, before they escalate into larger issues. While Appwrite handles automatic scaling, regular monitoring can help you optimize your application to avoid overuse of resources and prevent unnecessary costs.";
  "";
  "You can monitor your Appwrite project's performance via the dashboard, which gives insights into your API request count, database operations, and storage usage. This data helps you manage your plan limits more effectively and optimize your app to avoid unexpected scaling needs.";
  "";
  "![Monitoring resource usage in Appwrite dashboard](/images/blog/how-to-optimize-your-appwrite-project/resource-monitoring.png)";
  "";
  "## Horizontal scaling";
  "";
  "For self-hosted environments, Appwrite can be scaled horizontally by replicating containers across multiple servers. Stateless containers like those running functions or workers can be easily replicated to distribute workloads. However, for stateful services like databases, manual scaling configurations may be required.";
  "";
  "Horizontal scaling ensures that the load is distributed evenly across multiple instances, making your application more resilient during high-traffic periods.";
  "";
  "# Conclusion";
  "";
  "Optimizing your Appwrite project ensures you not only provide a better experience to your users but also prevent unnecessary resource overuse. By applying the techniques discussed in this guide, you can keep your project running smoothly while staying within your plan limits.";
  "";
  "These optimizations aren't just about cost savings—they are about making your app more scalable, efficient, and reliable as it grows. Rather than waiting until you hit plan limits, taking a proactive approach builds trust and ensures your users always experience the best possible performance, even as your app scales.";
  "";
  "Further reading and resources:";
  "";
  "- [Serverless functions 101: Best practices](http:appwrite.io/blog/post/serverless-functions-best-practices)";
  "- [Appwrite Queries documentation](https://appwrite.io/docs/products/databases/queries)";
  "- [Appwrite Buckets documentation](https://appwrite.io/docs/products/storage/buckets)"
].

(** The line that opens and closes the front-matter header. *)
Definition fence : string := "---".

(** The lines up to the closing fence, and the lines after it. *)
Fixpoint until_fence (ls : list string) : option (list string * list string) :=
  match ls with
  | [] => None
  | l :: rest =>
      if String.eqb l fence then Some ([], rest)
      else '(h, b) ← until_fence rest; Some (l :: h, b)
  end.

(** The header block and the body of a document that starts with a fence. *)
Definition split_front_matter (doc : list string)
    : option (list string * list string) :=
  match doc with
  | l :: rest => if String.eqb l fence then until_fence rest else None
  | [] => None
  end.

(** The key of a header line [key: value]. *)
Definition key_of (line : string) : option string :=
  n ← String.index 0 ":" line; Some (String.substring 0 n line).

(** The keys of a header block, in order; [None] when a line has none. *)
Definition header_keys (header : list string) : option (list string) :=
  mapM key_of header.

(** Modelled from the spec: the keys the rendering collaborator recognises
    (section 6); the collaborator is outside the repository. *)
Definition recognized_keys : list string :=
  [ "layout"; "title"; "description"; "date"; "cover"; "timeToRead";
    "author"; "category"; "featured" ].

Definition recognized (k : string) : bool :=
  bool_decide (k ∈ recognized_keys).

Definition blank (l : string) : bool := String.eqb l "".

(** A heading line of the body's markup. *)
Definition heading (l : string) : bool := String.prefix "# " l.

End BlogPost.

(** ** The JavaScript the post's code samples run on *)

Module Js.

(** The values JSON can carry.  Numbers are the integers, which is what
    [Date.now()] and the arithmetic of the samples produce; an object is
    the list of its members in the order they were defined. *)
#[warnings="-register-all"]
Inductive Json : Type :=
| JNull
| JBool (b : bool)
| JNum (n : Z)
| JStr (s : string)
| JArr (items : list Json)
| JObj (fields : list (string * Json)).

(** What reading a property gives: [undefined], or a value. *)
Inductive Value : Type :=
| Undefined
| Val (j : Json).

Inductive Exception : Type :=
| SyntaxError
| TypeError
| QuotaExceededError.

(** What converting a value to a number gives: a number, NaN, or a
    [TypeError], thrown when an object has no callable [valueOf] or
    [toString] that yields a primitive (an object parsed from JSON whose
    own [toString] member shadows the inherited method, or an array
    holding one). *)
Inductive Conversion : Type :=
| Number (n : Z)
| NaN
| NotConvertible.

(** The built-ins of the host the samples call. *)
Record Host : Type := mkHost {
  (** [JSON.stringify] *)
  stringify : Json -> string;
  (** [JSON.parse]; [None] when it throws a [SyntaxError] *)
  parse : string -> option Json;
  (** what converting a string, an array or an object to a number gives *)
  coerce : Json -> Conversion;
  (** whether [localStorage] has room for these contents *)
  fits : gmap string string -> bool
}.

(** Code that reads and writes [localStorage] and may throw. *)
Definition M (A : Type) : Type :=
  gmap string string -> (Exception + A) * gmap string string.

Definition ret {A : Type} (a : A) : M A := fun st => (inr a, st).

Definition throw {A : Type} (e : Exception) : M A := fun st => (inl e, st).

Definition bind {A B : Type} (c : M A) (k : A -> M B) : M B :=
  fun st =>
    match c st with
    | (inr a, st') => k a st'
    | (inl e, st') => (inl e, st')
    end.

(** [localStorage.getItem(key)]: the string stored, or [null]. *)
Definition getItem (key : string) : M (option string) :=
  fun st => (inr (st !! key), st).

(** [localStorage.setItem(key, value)]: throws when the quota is exceeded. *)
Definition setItem (h : Host) (key value : string) : M unit :=
  fun st =>
    if fits h (<[key := value]> st)
    then (inr tt, <[key := value]> st)
    else (inl QuotaExceededError, st).

(** [localStorage.removeItem(key)] *)
Definition removeItem (key : string) : M unit :=
  fun st => (inr tt, delete key st).

(** [!s] for the result of [getItem]: [null] and the empty string are
    falsy. *)
Definition falsy (s : option string) : bool :=
  match s with
  | None => true
  | Some text => String.eqb text ""
  end.

(** [JSON.parse(text)] *)
Definition json_parse (h : Host) (text : string) : M Json :=
  match parse h text with
  | Some j => ret j
  | None => throw SyntaxError
  end.

(** The member named [k] of an object; a later definition of the same name
    overrides an earlier one. *)
Fixpoint field (k : string) (fields : list (string * Json)) : Value :=
  match fields with
  | [] => Undefined
  | (k', v) :: rest =>
      match field k rest with
      | Undefined => if String.eqb k k' then Val v else Undefined
      | found => found
      end
  end.

(** What [j.k] gives for a [j] other than [null] and for the names the
    samples read, [data] and [expiry]: an object gives its member, and a
    boolean, number, string or array has no property of either name. *)
Definition member (j : Json) (k : string) : Value :=
  match j with
  | JObj fields => field k fields
  | _ => Undefined
  end.

(** [j.k]: reading a property of [null] throws a [TypeError]. *)
Definition get_prop (j : Json) (k : string) : M Value :=
  match j with
  | JNull => throw TypeError
  | _ => ret (member j k)
  end.

(** The conversion of a value to a number: [undefined] is NaN, [null] is
    0, [true] is 1 and [false] is 0; strings, arrays and objects are the
    host's to convert. *)
Definition to_number (h : Host) (v : Value) : Conversion :=
  match v with
  | Undefined => NaN
  | Val JNull => Number 0
  | Val (JBool b) => Number (if b then 1 else 0)
  | Val (JNum n) => Number n
  | Val j => coerce h j
  end.

(** [n > v] for a number [n]: false when [v] converts to NaN, and a
    [TypeError] when [v] does not convert. *)
Definition number_gt (h : Host) (n : Z) (v : Value) : M bool :=
  match to_number h v with
  | Number m => ret (m <? n)
  | NaN => ret false
  | NotConvertible => throw TypeError
  end.

End Js.

Declare Scope js_scope.
Delimit Scope js_scope with js.
Notation "'do!' x <- c ; k" := (Js.bind c (fun x => k))
  (at level 10, x name, c at level 100, k at level 200) : js_scope.
Notation "'go!' c ; k" := (Js.bind c (fun _ => k))
  (at level 10, c at level 100, k at level 200) : js_scope.

(** ** The cache of the post's section on cache expiry
    ([+page.markdoc], lines 118 to 136) *)

Module CacheSnippet.
Import Js.
Local Open Scope js_scope.

(** The object [{ data, expiry }] a save builds at clock reading [now]. *)
Definition cache_item (now : Z) (data : Json) : Json :=
  JObj [ ("data", data); ("expiry", JNum (now + 1000 * 60 * 60)) ].

(** [const saveToCache = (key, data) => { ... }], with [now] the reading
    of [Date.now()]. *)
Definition saveToCache (h : Host) (now : Z) (key : string) (data : Json)
    : M unit :=
  let item := cache_item now data in
  setItem h key (stringify h item).

(** [const getFromCache = (key) => { ... }], with [now] the reading of
    [Date.now()].  The words [return null] of the stale branch stand
    inside the line comment that follows [removeItem(key)], so the branch
    only removes the item and control reaches [return item.data]. *)
Definition getFromCache (h : Host) (now : Z) (key : string) : M Value :=
  do! cachedItem <- getItem key;
  if falsy cachedItem then ret (Val JNull) else
  do! item <- json_parse h (default "" cachedItem);
  do! expiry <- get_prop item "expiry";
  do! stale <- number_gt h now expiry;
  go! (if stale then removeItem key else ret tt);
  get_prop item "data".

(** The host round-trips [j]: [JSON.stringify] gives a text that
    [JSON.parse] reads back as [j]. *)
Definition round_trips (h : Host) (j : Json) : Prop :=
  stringify h j <> "" /\ parse h (stringify h j) = Some j.

End CacheSnippet.

(** ** A host for concrete runs *)

Module MiniJson.
Import Stdlib.Strings.Ascii.
Import Js.

Definition quote : Ascii.ascii := Ascii.ascii_of_nat 34.
Definition backslash : Ascii.ascii := Ascii.ascii_of_nat 92.

Fixpoint escape (s : string) : string :=
  match s with
  | EmptyString => EmptyString
  | String c r =>
      if Ascii.eqb c quote || Ascii.eqb c backslash
      then String backslash (String c (escape r))
      else String c (escape r)
  end.

Definition print_string (s : string) : string :=
  String quote (escape s +:+ String quote "").

(** The text of a JSON value, without blanks. *)
Fixpoint print (j : Json) : string :=
  match j with
  | JNull => "null"
  | JBool b => if b then "true" else "false"
  | JNum n => pretty n
  | JStr s => print_string s
  | JArr items =>
      "[" +:+ (fix go (l : list Json) : string :=
                 match l with
                 | [] => ""
                 | [x] => print x
                 | x :: r => print x +:+ "," +:+ go r
                 end) items +:+ "]"
  | JObj fields =>
      "{" +:+ (fix go (l : list (string * Json)) : string :=
                 match l with
                 | [] => ""
                 | [(k, v)] => print_string k +:+ ":" +:+ print v
                 | (k, v) :: r =>
                     print_string k +:+ ":" +:+ print v +:+ "," +:+ go r
                 end) fields +:+ "}"
  end.

Definition blank (c : Ascii.ascii) : bool :=
  let n := Ascii.nat_of_ascii c in
  (n =? 32)%nat || (n =? 9)%nat || (n =? 10)%nat || (n =? 13)%nat.

Fixpoint skip_blanks (s : string) : string :=
  match s with
  | String c r => if blank c then skip_blanks r else s
  | EmptyString => EmptyString
  end.

(** The rest of [s] after the word [w], when [s] starts with it. *)
Fixpoint after_word (w s : string) : option string :=
  match w, s with
  | EmptyString, _ => Some s
  | String a w', String b s' => if Ascii.eqb a b then after_word w' s' else None
  | String _ _, EmptyString => None
  end.

(** The characters of a string literal up to its closing quote. *)
Fixpoint read_string (s : string) : option (string * string) :=
  match s with
  | EmptyString => None
  | String c r =>
      if Ascii.eqb c quote then Some (EmptyString, r)
      else if Ascii.eqb c backslash then
        match r with
        | String d r' =>
            if Ascii.eqb d quote || Ascii.eqb d backslash
            then '(t, rest) ← read_string r'; Some (String d t, rest)
            else None
        | EmptyString => None
        end
      else '(t, rest) ← read_string r; Some (String c t, rest)
  end.

Definition digit (c : Ascii.ascii) : option Z :=
  let n := Ascii.nat_of_ascii c in
  if (48 <=? n)%nat && (n <=? 57)%nat then Some (Z.of_nat (n - 48)) else None.

Fixpoint read_digits (acc : Z) (s : string) : Z * string :=
  match s with
  | String c r =>
      match digit c with
      | Some d => read_digits (10 * acc + d) r
      | None => (acc, s)
      end
  | EmptyString => (acc, EmptyString)
  end.

(** The digits of a JSON number: at least one, and no zero in front of
    another digit. *)
Definition read_natural (s : string) : option (Z * string) :=
  match s with
  | String c r =>
      match digit c with
      | Some d =>
          match r with
          | String c' _ =>
              if Z.eqb d 0 && bool_decide (is_Some (digit c')) then None
              else Some (read_digits 0 s)
          | EmptyString => Some (read_digits 0 s)
          end
      | None => None
      end
  | EmptyString => None
  end.

(** An integer of JSON: an optional minus sign and its digits.  A fraction
    or an exponent after them is outside the integers of [Json] and is
    left unread, so [read] refuses such a text. *)
Definition read_number (s : string) : option (Z * string) :=
  match s with
  | String c r =>
      if Ascii.eqb c "-"%char
      then '(n, rest) ← read_natural r; Some (- n, rest)
      else read_natural s
  | EmptyString => None
  end.

Fixpoint read_value (fuel : nat) (s : string) : option (Json * string) :=
  match fuel with
  | O => None
  | S fuel' =>
      match skip_blanks s with
      | EmptyString => None
      | String c r as s' =>
          if Ascii.eqb c quote then
            '(t, rest) ← read_string r; Some (JStr t, rest)
          else if Ascii.eqb c "["%char then
            match after_word "]" (skip_blanks r) with
            | Some rest => Some (JArr [], rest)
            | None => '(items, rest) ← read_items fuel' r; Some (JArr items, rest)
            end
          else if Ascii.eqb c "{"%char then
            match after_word "}" (skip_blanks r) with
            | Some rest => Some (JObj [], rest)
            | None =>
                '(fields, rest) ← read_members fuel' r; Some (JObj fields, rest)
            end
          else
            match after_word "null" s', after_word "true" s',
                  after_word "false" s' with
            | Some rest, _, _ => Some (JNull, rest)
            | _, Some rest, _ => Some (JBool true, rest)
            | _, _, Some rest => Some (JBool false, rest)
            | _, _, _ => '(n, rest) ← read_number s'; Some (JNum n, rest)
            end
      end
  end
with read_items (fuel : nat) (s : string) : option (list Json * string) :=
  match fuel with
  | O => None
  | S fuel' =>
      '(v, rest) ← read_value fuel' s;
      match skip_blanks rest with
      | String c r =>
          if Ascii.eqb c ","%char then
            '(vs, rest') ← read_items fuel' r; Some (v :: vs, rest')
          else if Ascii.eqb c "]"%char then Some ([v], r)
          else None
      | EmptyString => None
      end
  end
with read_members (fuel : nat) (s : string)
    : option (list (string * Json) * string) :=
  match fuel with
  | O => None
  | S fuel' =>
      match skip_blanks s with
      | String q r =>
          if Ascii.eqb q quote then
            '(k, rest) ← read_string r;
            rest1 ← after_word ":" (skip_blanks rest);
            '(v, rest2) ← read_value fuel' rest1;
            match skip_blanks rest2 with
            | String c r' =>
                if Ascii.eqb c ","%char then
                  '(kvs, rest3) ← read_members fuel' r';
                  Some ((k, v) :: kvs, rest3)
                else if Ascii.eqb c "}"%char then Some ([(k, v)], r')
                else None
            | EmptyString => None
            end
          else None
      | EmptyString => None
      end
  end.

(** The value a whole text stands for. *)
Definition read (text : string) : option Json :=
  '(j, rest) ← read_value (S (String.length text)) text;
  if String.eqb (skip_blanks rest) "" then Some j else None.

(** Whether converting [j] to a primitive throws: an object with a member
    of its own named [toString], which shadows the inherited method and
    cannot be called, or an array holding such a value. *)
Fixpoint unconvertible (j : Json) : bool :=
  match j with
  | JObj fields =>
      match field "toString" fields with
      | Undefined => false
      | Val _ => true
      end
  | JArr items =>
      (fix any (l : list Json) : bool :=
         match l with
         | [] => false
         | x :: r => unconvertible x || any r
         end) items
  | _ => false
  end.

(** The number a string stands for: blanks around it are dropped, the
    empty string is 0, and an optionally signed run of decimal digits is
    its value.  Every other string is taken as NaN: this host does not
    read hexadecimal, fractional or exponent literals. *)
Definition string_number (s : string) : Conversion :=
  match skip_blanks s with
  | EmptyString => Number 0
  | String c r as t =>
      let '(sign, body) :=
        if Ascii.eqb c "-"%char then (-1, r)
        else if Ascii.eqb c "+"%char then (1, r)
        else (1, t) in
      match body with
      | String d _ =>
          match digit d with
          | Some _ =>
              let '(n, rest) := read_digits 0 body in
              if String.eqb (skip_blanks rest) "" then Number (sign * n)
              else NaN
          | None => NaN
          end
      | EmptyString => NaN
      end
  end.

(** The number the text of a convertible value stands for.  An array is
    the texts of its elements joined by commas, [null] giving the empty
    text; an object is the text [[object Object]]. *)
Fixpoint numeral (j : Json) : Conversion :=
  match j with
  | JNull => Number 0
  | JBool _ => NaN
  | JNum n => Number n
  | JStr s => string_number s
  | JArr items =>
      match items with
      | [] => Number 0
      | [x] => numeral x
      | _ => NaN
      end
  | JObj _ => NaN
  end.

Definition convert (j : Json) : Conversion :=
  if unconvertible j then NotConvertible else numeral j.

(** Room for five million characters of keys and values. *)
Definition within_quota (st : gmap string string) : bool :=
  map_fold (fun k v n => n + Z.of_nat (String.length k + String.length v))
           0 st <=? 5000000.

Definition host : Host := mkHost print read convert within_quota.

(** Midnight UTC of the post's date, 2024-09-20, in milliseconds. *)
Definition post_day : Z := 1726790400000.


Definition preferences : Json :=
  JObj [ ("view", JStr "list"); ("pageSize", JNum 20);
         ("pinned", JArr [JNum 3; JNum 7]); ("dark", JBool true) ].

End MiniJson.

(** * Properties *)

Import Kit Async Routes Pipeline RuleTable BlogPost.

(** ** Running asynchronous bodies *)

(** A body without operations leaves the world as it found it, records
    nothing and never suspends. *)
Lemma run_effect_free {A : Type} (c : Async A) (w : World) :
  effect_free c ->
  final (run c w) = w /\ trace (run c w) = [] /\ suspensions (run c w) = 0%nat.
Proof. destruct 1; simpl; auto. Qed.

(** A body without [await] settles without a suspension, whatever the
    operations answer. *)
Lemma run_no_await {A : Type} (c : Async A) :
  no_await c -> forall w, suspensions (run c w) = 0%nat.
Proof.
  induction 1 as [a | e | o k _ IH]; intros w; simpl; auto.
Qed.

(** An operation-free body is in particular free of [await]. *)
Lemma effect_free_no_await {A : Type} (c : Async A) :
  effect_free c -> no_await c.
Proof. destruct 1; constructor. Qed.

(** Every operation of a run is recorded: an empty record means an
    untouched world. *)
Lemma run_silent_world {A : Type} (c : Async A) (w : World) :
  trace (run c w) = [] -> final (run c w) = w.
Proof. destruct c; simpl; intros H; first [ reflexivity | discriminate H ]. Qed.

(** ** The framework's [redirect] *)

Lemma redirect_valid (s : Z) (l : string) :
  300 <= s <= 308 -> redirect s l = Normal (mkRedirect s l).
Proof.
  intros [Hlo Hhi]. unfold redirect.
  destruct (Z.ltb_spec s 300); [lia |].
  destruct (Z.ltb_spec 308 s); [lia |]. reflexivity.
Qed.

Lemma redirect_invalid (s : Z) (l : string) :
  s < 300 \/ 308 < s -> redirect s l = Abrupt (ThrownError "Invalid status code").
Proof.
  intros H. unfold redirect.
  destruct (Z.ltb_spec s 300); [reflexivity |].
  destruct (Z.ltb_spec 308 s); [reflexivity | lia].
Qed.

(** ** The handler *)

(** The body of [load], once the call to [redirect] is evaluated. *)
Lemma load_body (ev : LoadEvent) :
  TutorialIndex.load ev = Throw (ThrownRedirect tutorial_redirect).
Proof.
  unfold TutorialIndex.load, tutorial_redirect, first_step_route.
  rewrite redirect_valid by lia. reflexivity.
Qed.

Lemma load_run (ev : LoadEvent) (w : World) :
  run (TutorialIndex.load ev) w
  = mkRun w [] 0%nat (Rejected (ThrownRedirect tutorial_redirect)).
Proof. rewrite load_body. reflexivity. Qed.

Lemma load_effect_free (ev : LoadEvent) : effect_free (TutorialIndex.load ev).
Proof. rewrite load_body. constructor. Qed.

(** ** Paths *)

(** Appending a non-empty suffix never gives the string back. *)
Lemma append_nonempty_neq (s e : string) : e <> "" -> s +:+ e <> s.
Proof.
  intros He. induction s as [| c s IH]; simpl.
  - exact He.
  - intros H. injection H as H. exact (IH H).
Qed.

Lemma prefix_append (s e : string) : String.prefix s (s +:+ e) = true.
Proof.
  induction s as [| c s IH]; simpl.
  - destruct e; reflexivity.
  - destruct (Ascii.ascii_dec c c) as [_ | Hne]; [exact IH | congruence].
Qed.

Lemma length_append (s e : string) :
  String.length (s +:+ e) = (String.length s + String.length e)%nat.
Proof. induction s as [| c s IH]; simpl; [reflexivity | now rewrite IH]. Qed.

Lemma tutorial_route_of_file :
  route_of_file TutorialIndex.route_file = Some tutorial_route.
Proof. reflexivity. Qed.

Lemma tutorial_rules (ev : LoadEvent) (w : World) :
  redirect_rules ev w = [tutorial_rule].
Proof.
  unfold redirect_rules, routes. cbn [omap list_omap].
  unfold rule_of_route. cbn [fst snd].
  rewrite tutorial_route_of_file, load_run. reflexivity.
Qed.

(** ** The pipeline *)

Lemma step_inv (h : Handler) (p q : Phase) :
  step h p q ->
  exists ev w, p = Loading ev w /\ q = conclude (settled (run (h ev) w)).
Proof. destruct 1 as [ev w]. eauto. Qed.

Lemma step_deterministic (h : Handler) (p q q' : Phase) :
  step h p q -> step h p q' -> q = q'.
Proof.
  intros H1 H2.
  apply step_inv in H1 as (ev & w & -> & ->).
  apply step_inv in H2 as (ev' & w' & Heq & ->).
  injection Heq as <- <-. reflexivity.
Qed.

Lemma concluded_is_final (h : Handler) (s : Settled PageData) :
  nf (step h) (conclude s).
Proof.
  intros [q Hq]. apply step_inv in Hq as (ev & w & Heq & _).
  destruct s as [d | [r | m]]; discriminate Heq.
Qed.

Lemma load_step (ev : LoadEvent) (w : World) (q : Phase) :
  step TutorialIndex.load (Loading ev w) q -> q = Redirected tutorial_redirect.
Proof.
  intros H. apply step_inv in H as (ev' & w' & _ & ->).
  rewrite load_run. reflexivity.
Qed.

(** A stage has at most one successor. *)
Lemma transition_deterministic (s a b : Stage) :
  transition s a -> transition s b -> a = b.
Proof. unfold transition. congruence. Qed.

(** A load that is over stays over. *)
Lemma over_is_final (p : Phase) (w : World) : nf transition (Over p w).
Proof. intros [s' Hs']. discriminate Hs'. Qed.

(** The transitions of a load are the operations of the handler and its
    ending: they end in the phase and the world that [run] computes. *)
Lemma transitions_run (c : Async PageData) (w : World) :
  nsteps transition (S (length (trace (run c w)))) (InLoad c w)
         (Over (conclude (settled (run c w))) (final (run c w))).
Proof.
  revert w. induction c as [d | e | o k IH | o k IH]; intros w.
  - apply nsteps_once. reflexivity.
  - apply nsteps_once. reflexivity.
  - eapply nsteps_l; [reflexivity |]. apply IH.
  - eapply nsteps_l; [reflexivity |]. apply IH.
Qed.

(** The call of [load] is followed by the Redirected phase at once. *)
Lemma load_enter (ev : LoadEvent) (w : World) :
  transition (enter TutorialIndex.load ev w)
             (Over (Redirected tutorial_redirect) w).
Proof. unfold transition, enter. rewrite load_body. reflexivity. Qed.

Lemma load_reach (ev : LoadEvent) (w : World) (s : Stage) :
  rtc transition (enter TutorialIndex.load ev w) s ->
  s = enter TutorialIndex.load ev w
  \/ s = Over (Redirected tutorial_redirect) w.
Proof.
  intros Hreach. apply rtc_inv in Hreach as [<- | (y & Hstep & Hrest)];
    [now left | right].
  pose proof (transition_deterministic _ _ _ Hstep (load_enter ev w)) as ->.
  apply rtc_inv in Hrest as [<- | (z & Hstep' & _)]; [reflexivity |].
  discriminate Hstep'.
Qed.

(** ** The claims about the tutorial-index handler *)

(** C1: every invocation of the tutorial-index [load] handler ends in a
    thrown redirect whose destination is ['/docs/tutorials/nextjs/step-1']
    and whose status is 303, which classifies as Temporary. *)
Theorem load_redirects_to_first_step (ev : LoadEvent) (w : World) :
  exists r : Redirect,
    settled (run (TutorialIndex.load ev) w) = Rejected (ThrownRedirect r)
    /\ location r = "/docs/tutorials/nextjs/step-1"
    /\ status r = 303
    /\ classify (status r) = Some Temporary.
Proof.
  exists tutorial_redirect. rewrite load_run. repeat split.
Qed.

(** C2: the handler is pure and deterministic.  Its body performs no
    operation, so a run records no network call, file read or store
    mutation and hands the world back unchanged; a second invocation in
    the world the first one left (or in any other world) settles to the
    same signal, equal under every encoding into bytes. *)
Theorem load_pure_and_deterministic (ev : LoadEvent) (w w' : World) :
  effect_free (TutorialIndex.load ev)
  /\ trace (run (TutorialIndex.load ev) w) = []
  /\ final (run (TutorialIndex.load ev) w) = w
  /\ settled (run (TutorialIndex.load ev)
                  (final (run (TutorialIndex.load ev) w)))
     = settled (run (TutorialIndex.load ev) w)
  /\ settled (run (TutorialIndex.load ev) w')
     = settled (run (TutorialIndex.load ev) w)
  /\ forall encode : Settled PageData -> list Byte.byte,
       encode (settled (run (TutorialIndex.load ev) w'))
       = encode (settled (run (TutorialIndex.load ev) w)).
Proof.
  pose proof (load_effect_free ev) as Hfree.
  destruct (run_effect_free _ w Hfree) as (Hfinal & Htrace & _).
  assert (Hsame : forall v, settled (run (TutorialIndex.load ev) v)
                            = settled (run (TutorialIndex.load ev) w))
    by (intros v; now rewrite !load_run).
  split; [exact Hfree |]. split; [exact Htrace |]. split; [exact Hfinal |].
  split; [apply Hsame |]. split; [apply Hsame |].
  intros encode. rewrite (Hsame w'). reflexivity.
Qed.

(** C3: no redirect rule of the repository sends a route to itself.  The
    rules the route handlers define are the single tutorial rule, from
    ['/docs/tutorials/nextjs'] to ['/docs/tutorials/nextjs/step-1'], and
    its target differs from its source. *)
Theorem no_rule_redirects_to_itself (ev : LoadEvent) (w : World) :
  redirect_rules ev w
  = [ mkRule "/docs/tutorials/nextjs" "/docs/tutorials/nextjs/step-1" 303 ]
  /\ Forall (fun r => target r <> source r) (redirect_rules ev w).
Proof.
  rewrite tutorial_rules. split; [reflexivity |].
  constructor; [| constructor].
  change (target tutorial_rule) with (source tutorial_rule +:+ "/step-1").
  apply append_nonempty_neq. discriminate.
Qed.

(** C4: the handler is unconditional and cannot fail.  The call to
    [redirect] passes the framework's status check, no invocation throws
    an [Error] or returns, and all invocations settle to the same
    redirect. *)
Theorem load_cannot_fail (ev : LoadEvent) (w : World) :
  redirect 303 "/docs/tutorials/nextjs/step-1" = Normal tutorial_redirect
  /\ settled (run (TutorialIndex.load ev) w)
     = Rejected (ThrownRedirect tutorial_redirect)
  /\ (forall m, settled (run (TutorialIndex.load ev) w)
                <> Rejected (ThrownError m))
  /\ (forall m, conclude (settled (run (TutorialIndex.load ev) w))
                <> Failed m)
  /\ forall ev' w', settled (run (TutorialIndex.load ev') w')
                    = settled (run (TutorialIndex.load ev) w).
Proof.
  split; [apply redirect_valid; lia |].
  rewrite load_run. cbn [settled conclude].
  split; [reflexivity |]. split; [discriminate |]. split; [discriminate |].
  intros ev' w'. now rewrite load_run.
Qed.

(** C5: Redirected is the only terminal outcome of the handler.  Taking
    the load a transition at a time, whatever stage can be reached from the
    call of the handler and stopped in is the Redirected phase of the
    tutorial redirect, in the world the load started in (the transition is
    stateless).  It is reached by one transition and by no other number of
    them, no stage lies between the call and it (nothing is suspended that
    could time out, nothing is entered again), and it is never a normal
    render or a failure. *)
Theorem load_only_terminal_is_redirected
    (ev : LoadEvent) (w : World) (s : Stage) :
  rtc transition (enter TutorialIndex.load ev w) s ->
  nf transition s ->
  s = Over (Redirected tutorial_redirect) w
  /\ nsteps transition 1 (enter TutorialIndex.load ev w) s
  /\ (forall n, nsteps transition n (enter TutorialIndex.load ev w) s ->
                n = 1%nat)
  /\ (forall s', rtc transition (enter TutorialIndex.load ev w) s' ->
                 s' = enter TutorialIndex.load ev w \/ s' = s)
  /\ (forall d w', s <> Over (Rendered d) w')
  /\ (forall m w', s <> Over (Failed m) w').
Proof.
  intros Hreach Hfinal.
  destruct (load_reach ev w s Hreach) as [-> | ->].
  { exfalso. apply Hfinal. eexists. apply load_enter. }
  split; [reflexivity |].
  split; [apply nsteps_once, load_enter |].
  split.
  { intros n Hn. destruct n as [| [| n]]; [exfalso | reflexivity | exfalso].
    - inversion Hn.
    - inversion Hn as [| ? ? y ? Hstep Hrest]; subst.
      pose proof (transition_deterministic _ _ _ Hstep (load_enter ev w))
        as ->.
      inversion Hrest as [| ? ? y' ? Hstep' _]; subst.
      discriminate Hstep'. }
  split; [apply load_reach |].
  split; discriminate.
Qed.

(** A visit to the tutorial index in an empty world ends Redirected, in
    the empty world. *)
Lemma load_only_terminal_is_redirected_witness :
  rtc transition (enter TutorialIndex.load index_visit empty_world)
      (Over (Redirected tutorial_redirect) empty_world)
  /\ nf transition (Over (Redirected tutorial_redirect) empty_world)
  /\ nsteps transition 1 (enter TutorialIndex.load index_visit empty_world)
            (Over (Redirected tutorial_redirect) empty_world).
Proof.
  assert (Hreach : rtc transition
                       (enter TutorialIndex.load index_visit empty_world)
                       (Over (Redirected tutorial_redirect) empty_world)).
  { apply rtc_once. reflexivity. }
  assert (Hfinal : nf transition
                      (Over (Redirected tutorial_redirect) empty_world)).
  { intros [s' Hs']. discriminate Hs'. }
  split; [exact Hreach |]. split; [exact Hfinal |].
  exact (proj1 (proj2 (load_only_terminal_is_redirected
                         index_visit empty_world
                         (Over (Redirected tutorial_redirect) empty_world)
                         Hreach Hfinal))).
Defined.

(** C6: declared [async], the handler completes in one logical step.  Its
    body contains no [await]; every run returns, with no suspension and no
    operation, the rejected promise carrying the redirect, and the pipeline
    leaves Loading in a single transition. *)
Theorem load_completes_without_suspending (ev : LoadEvent) (w : World) :
  no_await (TutorialIndex.load ev)
  /\ run (TutorialIndex.load ev) w
     = mkRun w [] 0%nat (Rejected (ThrownRedirect tutorial_redirect))
  /\ suspensions (run (TutorialIndex.load ev) w) = 0%nat
  /\ nsteps (step TutorialIndex.load) 1 (Loading ev w)
            (Redirected tutorial_redirect).
Proof.
  pose proof (effect_free_no_await _ (load_effect_free ev)) as Hna.
  split; [| split; [| split]].
  - exact Hna.
  - apply load_run.
  - apply run_no_await, Hna.
  - apply nsteps_once.
    pose proof (step_load TutorialIndex.load ev w) as H.
    now rewrite load_run in H.
Qed.

(** C9: the handler ignores its argument.  For any two load events the
    bodies are the same computation, and run in the same world they give
    the same result, redirect signal included. *)
Theorem load_ignores_event (ev1 ev2 : LoadEvent) (w : World) :
  TutorialIndex.load ev1 = TutorialIndex.load ev2
  /\ run (TutorialIndex.load ev1) w = run (TutorialIndex.load ev2) w
  /\ settled (run (TutorialIndex.load ev1) w)
     = settled (run (TutorialIndex.load ev2) w).
Proof. rewrite !load_body. repeat split. Qed.

(** C10: the destination is a strict path-extension of the source.  The
    single rule's target is its source ['/docs/tutorials/nextjs'] followed
    by ['/step-1']: the source is a proper prefix of the target, so the
    target cannot be the source. *)
Theorem first_step_extends_tutorial_route (ev : LoadEvent) (w : World) :
  exists r : RedirectRule,
    redirect_rules ev w = [r]
    /\ source r = "/docs/tutorials/nextjs"
    /\ target r = source r +:+ "/step-1"
    /\ String.prefix (source r) (target r) = true
    /\ (String.length (source r) < String.length (target r))%nat
    /\ target r <> source r.
Proof.
  exists tutorial_rule. rewrite tutorial_rules.
  assert (Hext : target tutorial_rule = source tutorial_rule +:+ "/step-1")
    by reflexivity.
  split; [reflexivity |]. split; [reflexivity |]. split; [exact Hext |].
  rewrite Hext. split; [apply prefix_append |].
  split; [rewrite length_append; simpl; lia |].
  apply append_nonempty_neq. discriminate.
Qed.

(** ** The rule table *)

(** The table built from the repository's rules resolves the tutorial
    index to the signal the handler throws. *)
Lemma resolve_tutorial_route (ev : LoadEvent) (w : World) :
  resolve (table_of_rules (redirect_rules ev w)) tutorial_route
  = Jump (mkSignal first_step_route Temporary).
Proof.
  rewrite tutorial_rules. unfold resolve, table_of_rules.
  cbn [omap list_omap entry_of_rule tutorial_rule rule_status source target
       classify Z.eqb Pos.eqb mbind option_bind list_to_map foldr uncurry
       fst snd].
  now rewrite lookup_insert_eq.
Qed.

(** A source with a rule resolves to that rule's signal. *)
Lemma resolve_mapped (table : gmap string (string * Classification))
    (src dest : string) (cls : Classification) :
  table !! src = Some (dest, cls) ->
  resolve table src = Jump (mkSignal dest cls).
Proof. intros H. unfold resolve. now rewrite H. Qed.

(** C7: in a rule table, resolving a source route that has no rule yields
    [UnmappedRoute]: not a jump, not a silent no-op, not an unhandled
    fault. *)
Theorem resolve_absent_is_unmapped
    (table : gmap string (string * Classification)) (src : string) :
  table !! src = None ->
  resolve table src = UnmappedRoute
  /\ resolve table src <> SilentNoOp
  /\ resolve table src <> UnhandledFault
  /\ forall s, resolve table src <> Jump s.
Proof.
  intros Habsent. unfold resolve. rewrite Habsent.
  split; [reflexivity |]. split; [discriminate |]. split; discriminate.
Qed.

(** The blog index has no rule in the table of the repository's rules. *)
Lemma resolve_absent_is_unmapped_witness :
  table_of_rules (redirect_rules index_visit empty_world) !! "/blog" = None
  /\ resolve (table_of_rules (redirect_rules index_visit empty_world)) "/blog"
     = UnmappedRoute.
Proof.
  assert (Habsent : table_of_rules (redirect_rules index_visit empty_world)
                      !! "/blog" = None).
  { rewrite tutorial_rules. unfold table_of_rules.
    cbn [omap list_omap entry_of_rule tutorial_rule rule_status source target
         classify Z.eqb Pos.eqb mbind option_bind list_to_map foldr uncurry
         fst snd].
    rewrite lookup_insert_ne by discriminate. apply lookup_empty. }
  split; [exact Habsent |].
  exact (proj1 (resolve_absent_is_unmapped _ "/blog" Habsent)).
Defined.

(** ** The blog post *)

(** The header block of the post: the nine lines between the fences. *)
Lemma page_markdoc_header :
  fst <$> split_front_matter page_markdoc
  = Some [ "layout: post";
           "title: How to optimize your Appwrite project for cost and performance";
           "description: Learn how to optimize your Appwrite project, manage resource usage, costs, and ensure smooth performance as yout application scales.";
           "date: 2024-09-20";
           "cover: /images/blog/how-to-optimize-your-appwrite-project/cover.png";
           "timeToRead: 12";
           "author: ebenezer-don";
           "category: product";
           "featured: false" ].
Proof. vm_compute. reflexivity. Qed.

(** C8: every key of the post's front-matter header is a recognized key,
    and the header is followed by a formatted-text body.  The document
    splits at its fences into a header and a body; the header's keys are
    the nine recognized keys, each once; the body is not empty, has text
    and has headings. *)
Theorem front_matter_keys_recognized :
  exists (header body keys : list string),
    split_front_matter page_markdoc = Some (header, body)
    /\ header_keys header = Some keys
    /\ Forall (fun k => k ∈ recognized_keys) keys
    /\ keys = recognized_keys
    /\ body = drop 11 page_markdoc
    /\ length body = 244%nat
    /\ Exists (fun l => blank l = false) body
    /\ Exists (fun l => heading l = true) body.
Proof.
  destruct (split_front_matter page_markdoc) as [[header body] |] eqn:Hsplit;
    [| vm_compute in Hsplit; discriminate Hsplit].
  exists header, body, recognized_keys.
  assert (Hh : header = take 9 (drop 1 page_markdoc)).
  { vm_compute in Hsplit. injection Hsplit as <- _. vm_compute. reflexivity. }
  assert (Hb : body = drop 11 page_markdoc).
  { vm_compute in Hsplit. injection Hsplit as _ <-. vm_compute. reflexivity. }
  split; [reflexivity |].
  split; [subst header; vm_compute; reflexivity |].
  split.
  { apply Forall_forall. intros k Hk. exact Hk. }
  split; [reflexivity |].
  split; [exact Hb |].
  split; [subst body; vm_compute; reflexivity |].
  split.
  - subst body. apply Exists_exists.
    exists (default "" (page_markdoc !! 12%nat)).
    split; [| vm_compute; reflexivity].
    apply list_elem_of_lookup. exists 1%nat. vm_compute. reflexivity.
  - subst body. apply Exists_exists.
    exists "# 1. Reducing API requests: Smart querying and consolidation".
    split; [| vm_compute; reflexivity].
    apply list_elem_of_lookup. exists 5%nat. vm_compute. reflexivity.
Qed.

(** ** The cache of the blog post *)

Import Js CacheSnippet.

(** [getFromCache], branch by branch. *)
Lemma getFromCache_cases (h : Host) (t : Z) (key : string)
    (st : gmap string string) :
  getFromCache h t key st =
  match st !! key with
  | None => (inr (Val JNull), st)
  | Some text =>
      if String.eqb text "" then (inr (Val JNull), st)
      else match parse h text with
           | None => (inl SyntaxError, st)
           | Some JNull => (inl TypeError, st)
           | Some item =>
               match to_number h (member item "expiry") with
               | Number m =>
                   (inr (member item "data"),
                    if m <? t then delete key st else st)
               | NaN => (inr (member item "data"), st)
               | NotConvertible => (inl TypeError, st)
               end
           end
  end.
Proof.
  unfold getFromCache, bind, getItem, json_parse.
  destruct (st !! key) as [text |]; simpl; [| reflexivity].
  destruct (String.eqb text ""); [reflexivity |].
  destruct (parse h text) as [item |]; simpl; [| reflexivity].
  destruct item; simpl; try reflexivity; unfold number_gt;
    match goal with
    | |- context [to_number ?h ?v] =>
        destruct (to_number h v) as [m | |]; simpl;
        [destruct (m <? t) | |]; reflexivity
    end.
Qed.

(** A time that is past some reading of the clock is past every later
    one. *)
Lemma past_mono (m t t' : Z) :
  t <= t' -> (m <? t) = true -> (m <? t') = true.
Proof. intros Hle Hlt. apply Z.ltb_lt in Hlt. apply Z.ltb_lt. lia. Qed.

Lemma saveToCache_stored (h : Host) (now : Z) (key : string) (data : Json)
    (st : gmap string string) :
  fits h (<[key := stringify h (cache_item now data)]> st) = true ->
  saveToCache h now key data st
  = (inr tt, <[key := stringify h (cache_item now data)]> st).
Proof. intros Hfits. unfold saveToCache, setItem. now rewrite Hfits. Qed.

(** A read of an entry that [saveToCache] wrote. *)
Lemma getFromCache_saved (h : Host) (now t : Z) (key : string) (data : Json)
    (st : gmap string string) :
  st !! key = Some (stringify h (cache_item now data)) ->
  round_trips h (cache_item now data) ->
  getFromCache h t key st
  = (inr (Val data), if now + 3600000 <? t then delete key st else st).
Proof.
  intros Hst [Hne Hback]. rewrite getFromCache_cases, Hst.
  destruct (String.eqb_spec (stringify h (cache_item now data)) "")
    as [Hempty | _]; [contradiction |].
  rewrite Hback. reflexivity.
Qed.

(** The value a read gives depends on the entry of its key alone. *)
Lemma getFromCache_value_local (h : Host) (t t' : Z) (key : string)
    (st st' : gmap string string) :
  st !! key = st' !! key ->
  (getFromCache h t key st).1 = (getFromCache h t' key st').1.
Proof.
  intros Heq. rewrite !getFromCache_cases, <- Heq.
  destruct (st !! key) as [text |]; [| reflexivity].
  destruct (String.eqb text ""); [reflexivity |].
  destruct (parse h text) as [item |]; [| reflexivity].
  destruct item; try reflexivity;
    match goal with
    | |- context [to_number ?h ?v] => destruct (to_number h v)
    end; reflexivity.
Qed.

(** The storage after a read: untouched, or without the key read. *)
Lemma getFromCache_storage_cases (h : Host) (t : Z) (key : string)
    (st : gmap string string) :
  (getFromCache h t key st).2 = st
  \/ (getFromCache h t key st).2 = delete key st.
Proof.
  rewrite getFromCache_cases.
  destruct (st !! key) as [text |]; [| now left].
  destruct (String.eqb text ""); [now left |].
  destruct (parse h text) as [item |]; [| now left].
  destruct item; try (now left);
    match goal with
    | |- context [to_number ?h ?v] =>
        destruct (to_number h v) as [m | |]; [destruct (m <? t) | |]
    end; cbn [snd]; auto.
Qed.

Lemma getFromCache_other_key (h : Host) (t : Z) (key k : string)
    (st : gmap string string) :
  k <> key -> (getFromCache h t key st).2 !! k = st !! k.
Proof.
  intros Hk. destruct (getFromCache_storage_cases h t key st) as [-> | ->];
    [reflexivity | now apply lookup_delete_ne].
Qed.

(** X1: what [saveToCache] stores, [getFromCache] gives back for a whole
    hour.  When the storage has room and the host round-trips the item, a
    read of the key no later than 3600000 ms after the save returns the
    saved data and leaves the storage as the save left it; the bound is
    inclusive. *)
Theorem cache_round_trip_within_the_hour (h : Host) (now t : Z)
    (key : string) (data : Json) (st : gmap string string) :
  fits h (<[key := stringify h (cache_item now data)]> st) = true ->
  round_trips h (cache_item now data) ->
  t <= now + 3600000 ->
  exists st',
    saveToCache h now key data st = (inr tt, st')
    /\ getFromCache h t key st' = (inr (Val data), st').
Proof.
  intros Hfits Hrt Ht. eexists. split; [now apply saveToCache_stored |].
  rewrite (getFromCache_saved h now t key data _ (lookup_insert_eq _ _ _) Hrt).
  destruct (Z.ltb_spec (now + 3600000) t); [lia | reflexivity].
Qed.

Lemma cache_round_trip_within_the_hour_witness :
  fits MiniJson.host
       (<["prefs" := stringify MiniJson.host
                       (cache_item MiniJson.post_day MiniJson.preferences)]> ∅)
  = true
  /\ round_trips MiniJson.host
                 (cache_item MiniJson.post_day MiniJson.preferences)
  /\ MiniJson.post_day + 3600000 <= MiniJson.post_day + 3600000
  /\ exists st',
       saveToCache MiniJson.host MiniJson.post_day "prefs" MiniJson.preferences ∅
       = (inr tt, st')
       /\ getFromCache MiniJson.host (MiniJson.post_day + 3600000) "prefs" st'
          = (inr (Val MiniJson.preferences), st').
Proof.
  assert (Hfits : fits MiniJson.host
            (<["prefs" := stringify MiniJson.host
                 (cache_item MiniJson.post_day MiniJson.preferences)]> ∅) = true)
    by (vm_compute; reflexivity).
  assert (Hrt : round_trips MiniJson.host
            (cache_item MiniJson.post_day MiniJson.preferences))
    by (split; vm_compute; [discriminate | reflexivity]).
  assert (Ht : MiniJson.post_day + 3600000 <= MiniJson.post_day + 3600000)
    by lia.
  split; [exact Hfits |]. split; [exact Hrt |]. split; [exact Ht |].
  exact (cache_round_trip_within_the_hour MiniJson.host MiniJson.post_day
           (MiniJson.post_day + 3600000) "prefs" MiniJson.preferences ∅
           Hfits Hrt Ht).
Defined.



(** X3: the value [getFromCache] returns, or the exception it throws, does
    not depend on the clock.  Whatever the storage holds, two reads of a
    key from the same storage at any two times have the same outcome; the
    time of a read decides only whether the entry is removed. *)
Theorem getFromCache_outcome_ignores_clock (h : Host) (t t' : Z)
    (key : string) (st : gmap string string) :
  (getFromCache h t key st).1 = (getFromCache h t' key st).1.
Proof.
  rewrite !getFromCache_cases.
  destruct (st !! key) as [text |]; [| reflexivity].
  destruct (String.eqb text ""); [reflexivity |].
  destruct (parse h text) as [item |]; [| reflexivity].
  destruct item; try reflexivity;
    match goal with
    | |- context [to_number ?h ?v] => destruct (to_number h v)
    end; reflexivity.
Qed.

(** X4: [getFromCache] never writes.  The storage after a read is the
    storage before it, or that storage without the key read: every other
    key keeps its entry, and no entry is added or changed. *)
Theorem getFromCache_only_removes_its_key (h : Host) (t : Z) (key : string)
    (st : gmap string string) :
  ((getFromCache h t key st).2 = st
   \/ (getFromCache h t key st).2 = delete key st)
  /\ (forall k, k <> key -> (getFromCache h t key st).2 !! k = st !! k)
  /\ (getFromCache h t key st).2 ⊆ st.
Proof.
  split; [apply getFromCache_storage_cases |].
  split; [intros k Hk; now apply getFromCache_other_key |].
  destruct (getFromCache_storage_cases h t key st) as [-> | ->];
    [reflexivity | apply delete_subseteq].
Qed.



(** X6: the last save wins, expiry included, when the storage accepts
    it.  Provided the host round-trips the second item: if [localStorage]
    has room for the second item, then after two saves under one key the
    storage is what the second save alone would have left, whether or not
    the first one found room, and a read no later than 3600000 ms after
    the second save returns the second data, however long ago the first
    save was; if it has no room, the second save throws a
    [QuotaExceededError] and the storage stays as the first save left
    it. *)
Theorem second_save_replaces_first (h : Host) (now1 now2 t : Z)
    (key : string) (data1 data2 : Json) (st : gmap string string) :
  round_trips h (cache_item now2 data2) ->
  t <= now2 + 3600000 ->
  (fits h (<[key := stringify h (cache_item now2 data2)]> st) = true ->
   exists st2,
     saveToCache h now2 key data2 (saveToCache h now1 key data1 st).2
     = (inr tt, st2)
     /\ saveToCache h now2 key data2 st = (inr tt, st2)
     /\ getFromCache h t key st2 = (inr (Val data2), st2))
  /\ (fits h (<[key := stringify h (cache_item now2 data2)]> st) = false ->
      saveToCache h now2 key data2 (saveToCache h now1 key data1 st).2
      = (inl QuotaExceededError, (saveToCache h now1 key data1 st).2)).
Proof.
  intros Hrt Ht.
  assert (Hsame : <[key := stringify h (cache_item now2 data2)]>
                    (saveToCache h now1 key data1 st).2
                  = <[key := stringify h (cache_item now2 data2)]> st).
  { unfold saveToCache at 1. unfold setItem.
    destruct (fits h (<[key := stringify h (cache_item now1 data1)]> st));
      cbn [snd]; [apply insert_insert_eq | reflexivity]. }
  split.
  - intros Hfits.
    exists (<[key := stringify h (cache_item now2 data2)]> st).
    split; [| split].
    + rewrite saveToCache_stored; rewrite Hsame; [reflexivity | exact Hfits].
    + now apply saveToCache_stored.
    + rewrite (getFromCache_saved h now2 t key data2 _
                 (lookup_insert_eq _ _ _) Hrt).
      destruct (Z.ltb_spec (now2 + 3600000) t); [lia | reflexivity].
  - intros Hfull. unfold saveToCache at 1. unfold setItem.
    rewrite Hsame, Hfull. reflexivity.
Qed.

Lemma second_save_replaces_first_witness :
  round_trips MiniJson.host
              (cache_item (MiniJson.post_day + 7200000) (JStr "grid"))
  /\ MiniJson.post_day + 9000000 <= MiniJson.post_day + 7200000 + 3600000
  /\ fits MiniJson.host
          (<["prefs" := stringify MiniJson.host
                          (cache_item (MiniJson.post_day + 7200000)
                                      (JStr "grid"))]> ∅)
     = true
  /\ exists st2,
       saveToCache MiniJson.host (MiniJson.post_day + 7200000) "prefs"
         (JStr "grid")
         (saveToCache MiniJson.host MiniJson.post_day "prefs"
            MiniJson.preferences ∅).2
       = (inr tt, st2)
       /\ saveToCache MiniJson.host (MiniJson.post_day + 7200000) "prefs"
            (JStr "grid") ∅
          = (inr tt, st2)
       /\ getFromCache MiniJson.host (MiniJson.post_day + 9000000) "prefs" st2
          = (inr (Val (JStr "grid")), st2).
Proof.
  assert (Hrt : round_trips MiniJson.host
            (cache_item (MiniJson.post_day + 7200000) (JStr "grid")))
    by (split; vm_compute; [discriminate | reflexivity]).
  assert (Ht : MiniJson.post_day + 9000000
               <= MiniJson.post_day + 7200000 + 3600000)
    by (vm_compute; discriminate).
  assert (Hfits : fits MiniJson.host
            (<["prefs" := stringify MiniJson.host
                 (cache_item (MiniJson.post_day + 7200000) (JStr "grid"))]> ∅)
            = true)
    by (vm_compute; reflexivity).
  split; [exact Hrt |]. split; [exact Ht |]. split; [exact Hfits |].
  exact (proj1 (second_save_replaces_first MiniJson.host MiniJson.post_day
                  (MiniJson.post_day + 7200000) (MiniJson.post_day + 9000000)
                  "prefs" MiniJson.preferences (JStr "grid") ∅ Hrt Ht)
               Hfits).
Defined.

(** X7: a save under one key does not disturb another.  Whether or not
    the save finds room, a read of a different key has the same outcome
    after the save as before it, and that read leaves the saved key's
    entry in place. *)
Theorem save_leaves_other_keys_alone (h : Host) (now t : Z)
    (key key' : string) (data : Json) (st : gmap string string) :
  key' <> key ->
  (getFromCache h t key' (saveToCache h now key data st).2).1
  = (getFromCache h t key' st).1
  /\ (getFromCache h t key' (saveToCache h now key data st).2).2 !! key
     = (saveToCache h now key data st).2 !! key.
Proof.
  intros Hne. split.
  - apply getFromCache_value_local. unfold saveToCache, setItem.
    destruct (fits h _); cbn [snd]; [| reflexivity].
    now apply lookup_insert_ne.
  - apply getFromCache_other_key. congruence.
Qed.

Lemma save_leaves_other_keys_alone_witness :
  "theme" <> "prefs"
  /\ (getFromCache MiniJson.host (MiniJson.post_day + 5) "theme"
        (saveToCache MiniJson.host MiniJson.post_day "prefs"
           MiniJson.preferences {["theme" := "oops"]}).2).1
     = (getFromCache MiniJson.host (MiniJson.post_day + 5) "theme"
          {["theme" := "oops"]}).1.
Proof.
  assert (Hne : "theme" <> "prefs") by discriminate.
  split; [exact Hne |].
  exact (proj1 (save_leaves_other_keys_alone MiniJson.host MiniJson.post_day
                  (MiniJson.post_day + 5) "prefs" "theme"
                  MiniJson.preferences {["theme" := "oops"]} Hne)).
Defined.

(** X8: eviction follows the clock.  If a read at some time removes the
    entry of its key, a read of the same storage at any later time removes
    it too; so an entry that survives a read would have survived every
    earlier one. *)
Theorem eviction_is_monotone_in_time (h : Host) (t t' : Z) (key : string)
    (st : gmap string string) :
  t <= t' ->
  (getFromCache h t key st).2 = delete key st ->
  (getFromCache h t' key st).2 = delete key st.
Proof.
  intros Hle. rewrite !getFromCache_cases.
  destruct (st !! key) as [text |]; [| auto].
  destruct (String.eqb text ""); [auto |].
  destruct (parse h text) as [item |]; [| auto].
  assert (Hmono : forall m,
            (if m <? t then delete key st else st) = delete key st ->
            (if m <? t' then delete key st else st) = delete key st).
  { intros m. destruct (m <? t) eqn:Hgt.
    - now rewrite (past_mono m t t' Hle Hgt).
    - intros Heq. destruct (m <? t'); [reflexivity | exact Heq]. }
  destruct item; cbn [snd]; auto;
    match goal with
    | |- context [to_number ?h ?v] =>
        destruct (to_number h v) as [m | |]; cbn [snd]; auto
    end.
Qed.

Lemma eviction_is_monotone_in_time_witness :
  MiniJson.post_day + 3600001 <= MiniJson.post_day + 86400000
  /\ (getFromCache MiniJson.host (MiniJson.post_day + 3600001) "prefs"
        (saveToCache MiniJson.host MiniJson.post_day "prefs"
           MiniJson.preferences ∅).2).2
     = delete "prefs"
         (saveToCache MiniJson.host MiniJson.post_day "prefs"
            MiniJson.preferences ∅).2
  /\ (getFromCache MiniJson.host (MiniJson.post_day + 86400000) "prefs"
        (saveToCache MiniJson.host MiniJson.post_day "prefs"
           MiniJson.preferences ∅).2).2
     = delete "prefs"
         (saveToCache MiniJson.host MiniJson.post_day "prefs"
            MiniJson.preferences ∅).2.
Proof.
  assert (Hle : MiniJson.post_day + 3600001 <= MiniJson.post_day + 86400000)
    by (vm_compute; discriminate).
  assert (Hev : (getFromCache MiniJson.host (MiniJson.post_day + 3600001)
                   "prefs"
                   (saveToCache MiniJson.host MiniJson.post_day "prefs"
                      MiniJson.preferences ∅).2).2
                = delete "prefs"
                    (saveToCache MiniJson.host MiniJson.post_day "prefs"
                       MiniJson.preferences ∅).2)
    by (vm_compute; reflexivity).
  split; [exact Hle |]. split; [exact Hev |].
  exact (eviction_is_monotone_in_time MiniJson.host
           (MiniJson.post_day + 3600001) (MiniJson.post_day + 86400000)
           "prefs" _ Hle Hev).
Defined.
